(** * Simple stock market: a shallow embedding and its verified properties

    The development follows the Python sources

      - [models/common.py]  the two enumerations,
      - [models/stock.py]   [Stock], [CommonStock], [PreferredStock],
      - [models/trade.py]   [Trade] and its [__post_init__] validation,
      - [stock_market.py]   [StockMarket].

    Numbers.  Python [int] quantities are [Z].  Prices, dividends and par
    values (Python [float], or [int] promoted by true division) are
    idealised as exact rationals [Q]; every comparison the code makes
    ([<= 0], [== 0], truthiness) is the decidable one on [Q].  The only
    transcendental functions, [math.log] and [math.exp] in the all-share
    index, are the real ones of the Standard Library, reached through
    [Q2R]; rounding, overflow and NaN are outside the model.

    Effects.  A raised exception is a value of [exn].  A method that only
    computes returns [result A]; a method that mutates the market returns
    an [outcome], which keeps the state the object is left in when the
    exception escapes.  The clock read by [datetime.now] is an explicit
    argument [now], in microseconds.  Logging is not modelled: an
    [except ... : log; raise] handler is the identity on results. *)

From Stdlib Require Import ZArith QArith Qabs Reals Lra Lia List Bool Ascii String.
From Stdlib Require Import Qreals Sorted.
From stdpp Require Import base option gmap strings list fin_maps.

Set Default Proof Using "Type".

(** ** Exceptions and results *)

Inductive exn : Set :=
| ValueError
| TypeError
| KeyError
| ZeroDivisionError
| NotImplementedError.

Definition result (A : Type) : Type := (exn + A)%type.

Definition ret {A : Type} (a : A) : result A := inr a.
Definition raise {A : Type} (e : exn) : result A := inl e.

Definition bind {A B : Type} (r : result A) (k : A -> result B) : result B :=
  match r with
  | inl e => inl e
  | inr a => k a
  end.

Notation "'try!' x ':=' r 'in' k" := (bind r (fun x => k))
  (at level 10, x name, r at level 100, k at level 200).

Definition raises {A : Type} (r : result A) : Prop :=
  match r with inl _ => True | inr _ => False end.

(** [try: body except Exception as e: handler]. *)
Definition try_except {A : Type} (body : result A) (handler : exn -> result A)
  : result A :=
  match body with
  | inr a => ret a
  | inl e => handler e
  end.

(** The two handlers of the sources: log and re-raise, log and return 0. *)
Definition log_and_raise {A : Type} (e : exn) : result A := raise e.
Definition log_and_return {A : Type} (default : A) (e : exn) : result A :=
  ret default.

(** ** Python numbers *)

Module Py.

(** [x <= 0] and [x == 0] on a number. *)
Definition le0 (x : Q) : bool := Qle_bool x 0.
Definition eq0 (x : Q) : bool := Qeq_bool x 0.

(** Truthiness of an [Optional] number: [None] and [0] are false. *)
Definition truthy (o : option Q) : bool :=
  match o with
  | Some x => negb (eq0 x)
  | None => false
  end.

(** True division [x / y]. *)
Definition div (x y : Q) : result Q :=
  if eq0 y then raise ZeroDivisionError else ret (x / y)%Q.

(** Arithmetic on [Optional] attributes: [None] is a type error. *)
Definition mul_opt (x y : option Q) : result Q :=
  match x, y with
  | Some u, Some v => ret (u * v)%Q
  | _, _ => raise TypeError
  end.

Definition div_opt (x : option Q) (y : Q) : result Q :=
  match x with
  | Some u => div u y
  | None => raise TypeError
  end.

(** [math.log]: a domain error outside the positive numbers. *)
Definition log (x : Q) : result R :=
  if le0 x then raise ValueError else ret (ln (Q2R x)).

End Py.

(** ** models/common.py *)

Inductive StockType : Set := COMMON | PREFERRED.
Inductive TradeType : Set := BUY | SELL.

(** ** models/stock.py *)

(** The fields of the [Stock] dataclass. *)
Record StockFields : Type := mkStockFields {
  symbol : string;
  last_dividend : option Q;
  par_value : option Q
}.

(** The class of a stock object: the base class, or one of its two
    subclasses; [PreferredStock] adds [fixed_dividend]. *)
Inductive Stock : Type :=
| BaseStock (f : StockFields)
| CommonStock (f : StockFields)
| PreferredStock (f : StockFields) (fixed_dividend : option Q).

Definition fields (s : Stock) : StockFields :=
  match s with
  | BaseStock f | CommonStock f | PreferredStock f _ => f
  end.

Definition stock_symbol (s : Stock) : string := symbol (fields s).

Module CommonStockImpl.

(** [CommonStock.calculate_dividend_yield] *)
Definition calculate_dividend_yield (self : StockFields) (market_price : Q)
  : result Q :=
  try_except
    (if Py.le0 market_price then raise ValueError
     else if Py.truthy (last_dividend self)
          then Py.div_opt (last_dividend self) market_price
          else ret 0%Q)
    log_and_raise.

End CommonStockImpl.

Module PreferredStockImpl.

(** [PreferredStock.calculate_dividend_yield] *)
Definition calculate_dividend_yield (self : StockFields)
    (fixed_dividend : option Q) (market_price : Q) : result Q :=
  try_except
    (if Py.le0 market_price || negb (Py.truthy fixed_dividend)
     then raise ValueError
     else
       try! payout := Py.mul_opt fixed_dividend (par_value self) in
       Py.div payout market_price)
    log_and_raise.

End PreferredStockImpl.

(** Method dispatch on the class of [self]; the base class raises. *)
Definition calculate_dividend_yield (self : Stock) (market_price : Q)
  : result Q :=
  match self with
  | BaseStock _ => raise NotImplementedError
  | CommonStock f => CommonStockImpl.calculate_dividend_yield f market_price
  | PreferredStock f fd =>
      PreferredStockImpl.calculate_dividend_yield f fd market_price
  end.

(** [Stock.calculate_pe_ratio] *)
Definition calculate_pe_ratio (self : Stock) (market_price : Q) : result Q :=
  try_except
    (try! dividend_yield := calculate_dividend_yield self market_price in
     if Py.eq0 dividend_yield then ret 0%Q
     else Py.div market_price dividend_yield)
    (log_and_return 0%Q).

(** ** models/trade.py *)

Record Trade : Type := mkTrade {
  stock : Stock;
  quantity : Z;
  type : TradeType;
  traded_price : Q;
  timestamp : Z
}.

(** [Trade.__post_init__] *)
Definition Trade_post_init (self : Trade) : result unit :=
  try_except
    (if (quantity self <=? 0)%Z then raise ValueError
     else if Py.le0 (traded_price self) then raise ValueError
     else ret tt)
    log_and_raise.

(** [Trade(stock=..., quantity=..., type=..., traded_price=...)]: the
    dataclass constructor fills [timestamp] from the clock and then runs
    [__post_init__]. *)
Definition Trade_new (now : Z) (stock : Stock) (quantity : Z)
    (type : TradeType) (traded_price : Q) : result Trade :=
  let self := mkTrade stock quantity type traded_price now in
  try! _ := Trade_post_init self in
  ret self.

(** ** stock_market.py *)

Record StockMarket : Type := mkStockMarket {
  trades : list Trade;
  stocks : gmap string Stock
}.

(** [StockMarket.__init__] *)
Definition StockMarket_init : StockMarket := mkStockMarket [] ∅.

(** A method call on a market either returns or raises; in both cases the
    object is left in some state. *)
Inductive outcome (A : Type) : Type :=
| Returned (a : A) (self : StockMarket)
| Raised (e : exn) (self : StockMarket).
Arguments Returned {A} a self.
Arguments Raised {A} e self.

Definition state_of {A : Type} (o : outcome A) : StockMarket :=
  match o with
  | Returned _ self | Raised _ self => self
  end.


(** Statements of a method body: state and exceptions threaded through. *)
Module Stmt.

Definition t (A : Type) : Type := StockMarket -> outcome A.

Definition pure {A : Type} (a : A) : t A := fun self => Returned a self.

Definition throw {A : Type} (e : exn) : t A := fun self => Raised e self.

Definition seq {A B : Type} (c : t A) (k : A -> t B) : t B :=
  fun self =>
    match c self with
    | Returned a self' => k a self'
    | Raised e self' => Raised e self'
    end.

(** An expression that may raise but does not touch the market. *)
Definition eval {A : Type} (r : result A) : t A :=
  fun self =>
    match r with
    | inr a => Returned a self
    | inl e => Raised e self
    end.

(** [try: c except Exception as e: handler] around statements. *)
Definition try_except {A : Type} (c : t A) (handler : exn -> t A) : t A :=
  fun self =>
    match c self with
    | Returned a self' => Returned a self'
    | Raised e self' => handler e self'
    end.

(** Log and re-raise. *)
Definition log_and_raise {A : Type} (e : exn) : t A := throw e.

(** [self.stocks.get(key)] *)
Definition stocks_get (key : string) : t (option Stock) :=
  fun self => Returned (stocks self !! key) self.

(** [self.stocks[key] = value] *)
Definition stocks_setitem (key : string) (value : Stock) : t unit :=
  fun self =>
    Returned tt (mkStockMarket (trades self) (<[key := value]> (stocks self))).

(** [self.trades.append(trade)] *)
Definition trades_append (trade : Trade) : t unit :=
  fun self =>
    Returned tt (mkStockMarket (trades self ++ [trade]) (stocks self)).

End Stmt.

Notation "'do!' x ':=' c 'in' k" := (Stmt.seq c (fun x => k))
  (at level 10, x name, c at level 100, k at level 200).

(** [StockMarket.record_trade] *)
Definition record_trade (now : Z) (stock_symbol : string) (quantity : Z)
    (trade_type : TradeType) (price : Q) : Stmt.t unit :=
  Stmt.try_except
    (do! stock := Stmt.stocks_get stock_symbol in
     match stock with
     | None => Stmt.throw ValueError
     | Some stock =>
         do! trade :=
           Stmt.eval (Trade_new now stock quantity trade_type price) in
         Stmt.trades_append trade
     end)
    Stmt.log_and_raise.

(** [timedelta(minutes=15)], in microseconds. *)
Definition minutes_15 : Z := 15 * 60 * 1000000.

(** The generator [relevant_trades] of
    [calculate_volume_weighted_stock_price]. *)
Definition relevant (stock_symbol : string) (time_15_minutes_ago : Z)
    (trade : Trade) : bool :=
  String.eqb (symbol (fields (stock trade))) stock_symbol
  && (time_15_minutes_ago <? timestamp trade)%Z.

Definition relevant_trades (self : StockMarket) (stock_symbol : string)
    (time_15_minutes_ago : Z) : list Trade :=
  List.filter (relevant stock_symbol time_15_minutes_ago) (trades self).

(** One iteration of the accumulation loop over
    [(total_product, total_quantity)]. *)
Definition vwsp_step (acc : Q * Z) (trade : Trade) : Q * Z :=
  ((fst acc + traded_price trade * inject_Z (quantity trade))%Q,
   (snd acc + quantity trade)%Z).

(** [StockMarket.calculate_volume_weighted_stock_price] *)
Definition calculate_volume_weighted_stock_price (self : StockMarket)
    (now : Z) (stock_symbol : string) : result Q :=
  try_except
    (let time_15_minutes_ago := (now - minutes_15)%Z in
     let totals :=
       fold_left vwsp_step
         (relevant_trades self stock_symbol time_15_minutes_ago) (0%Q, 0%Z) in
     let total_product := fst totals in
     let total_quantity := snd totals in
     if (total_quantity =? 0)%Z then ret 0%Q
     else Py.div total_product (inject_Z total_quantity))
    (log_and_return 0%Q).

(** [sum(log(trade.traded_price) * trade.quantity for trade in trades)]:
    the terms are produced and added left to right, and the first
    [math.log] that fails ends the sum. *)
Fixpoint sum_log_quantity (acc : R) (ts : list Trade) : result R :=
  match ts with
  | [] => ret acc
  | trade :: rest =>
      try! l := Py.log (traded_price trade) in
      sum_log_quantity (acc + l * IZR (quantity trade))%R rest
  end.

(** [sum(trade.quantity for trade in trades)] *)
Definition sum_quantity (ts : list Trade) : Z :=
  fold_left (fun acc trade => (acc + quantity trade)%Z) ts 0%Z.

(** [log_sum / total_quantity], a float by an int. *)
Definition rdiv (x : R) (y : Z) : result R :=
  if (y =? 0)%Z then raise ZeroDivisionError else ret (x / IZR y)%R.

(** [StockMarket.calculate_gbce_all_share_index] *)
Definition calculate_gbce_all_share_index (self : StockMarket) : result R :=
  try_except
    (match trades self with
     | [] => ret 0%R
     | _ :: _ =>
         try! log_sum := sum_log_quantity 0%R (trades self) in
         let total_quantity := sum_quantity (trades self) in
         if (total_quantity =? 0)%Z then ret 0%R
         else
           try! mean := rdiv log_sum total_quantity in
           ret (exp mean)
     end)
    (log_and_return 0%R).

(** One dictionary of [stock_data].  A field is [None] when the key is
    absent.  [data_type] is also [None] when the value under ['type'] is
    not a [str] (the [isinstance] test fails); the numeric fields hold
    [Some None] for a JSON [null]. *)
Record StockData : Type := mkStockData {
  data_symbol : option string;
  data_type : option string;
  data_last_dividend : option (option Q);
  data_par_value : option (option Q);
  data_fixed_dividend : option (option Q)
}.

(** [data[key]] *)
Definition getitem {A : Type} (field : option A) : result A :=
  match field with
  | Some v => ret v
  | None => raise KeyError
  end.

(** [str.upper] on the ASCII letters; other bytes are left as they are.
    A string is its UTF-8 bytes.  No character outside ASCII has an upper
    case made of the letters of COMMON or PREFERRED, so for the
    membership test below this agrees with the Unicode method. *)
Definition upper_ascii (c : ascii) : ascii :=
  let n := nat_of_ascii c in
  if (97 <=? n)%nat && (n <=? 122)%nat then ascii_of_nat (n - 32) else c.

Fixpoint upper (s : string) : string :=
  match s with
  | EmptyString => EmptyString
  | String c rest => String (upper_ascii c) (upper rest)
  end.

(** [StockType.__members__] as a lookup by member name. *)
Definition StockType_members (name : string) : option StockType :=
  if String.eqb name "COMMON" then Some COMMON
  else if String.eqb name "PREFERRED" then Some PREFERRED
  else None.

(** The conditional expression bound to [stock_type]. *)
Definition resolve_stock_type (data : StockData) : option StockType :=
  match data_type data with
  | Some ty => StockType_members (upper ty)
  | None => None
  end.

(** The constructor call on the right of the assignment, arguments
    evaluated left to right. *)
Definition build_stock (stock_type : StockType) (data : StockData)
  : result Stock :=
  try! sym := getitem (data_symbol data) in
  try! ld := getitem (data_last_dividend data) in
  try! pv := getitem (data_par_value data) in
  match stock_type with
  | COMMON => ret (CommonStock (mkStockFields sym ld pv))
  | PREFERRED =>
      try! fd := getitem (data_fixed_dividend data) in
      ret (PreferredStock (mkStockFields sym ld pv) fd)
  end.

(** The body of the [for data in stock_data] loop. *)
Definition get_stocks_step (data : StockData) : Stmt.t unit :=
  match resolve_stock_type data with
  | None => Stmt.throw ValueError
  | Some stock_type =>
      do! value := Stmt.eval (build_stock stock_type data) in
      do! key := Stmt.eval (getitem (data_symbol data)) in
      Stmt.stocks_setitem key value
  end.

(** The [for data in stock_data] loop. *)
Fixpoint get_stocks_loop (stock_data : list StockData) : Stmt.t unit :=
  match stock_data with
  | [] => Stmt.pure tt
  | data :: rest =>
      do! _ := get_stocks_step data in
      get_stocks_loop rest
  end.

(** [StockMarket.get_stocks] *)
Definition get_stocks (stock_data : list StockData) : Stmt.t unit :=
  Stmt.try_except (get_stocks_loop stock_data) Stmt.log_and_raise.

(** The states a market object can be in: created empty, then any number
    of [get_stocks] and [record_trade] calls, whether they return or
    raise. *)
Inductive reachable : StockMarket -> Prop :=
| reachable_init : reachable StockMarket_init
| reachable_get_stocks self stock_data :
    reachable self ->
    reachable (state_of (get_stocks stock_data self))
| reachable_record_trade self now stock_symbol quantity trade_type price :
    reachable self ->
    reachable
      (state_of (record_trade now stock_symbol quantity trade_type price self)).

(** [TradeType.name] *)
Definition TradeType_name (ty : TradeType) : string :=
  match ty with
  | BUY => "BUY"
  | SELL => "SELL"
  end.

(** One dictionary of the list [get_trade_details] returns. *)
Record TradeDetails : Type := mkTradeDetails {
  details_symbol : string;
  details_quantity : Z;
  details_type : string;
  details_traded_price : Q;
  details_timestamp : string
}.

(** [StockMarket.get_trade_details].  [datetime.isoformat] belongs to the
    Python library and is an argument here. *)
Definition get_trade_details (isoformat : Z -> string) (self : StockMarket)
  : list TradeDetails :=
  fold_left
    (fun trade_list trade =>
       let trade_details :=
         mkTradeDetails
           (symbol (fields (stock trade)))
           (quantity trade)
           (TradeType_name (type trade))
           (traded_price trade)
           (isoformat (timestamp trade)) in
       trade_list ++ [trade_details])
    (trades self) [].

(** ** main.py *)

(** The [try] block of [main] that records six trades, each call reading
    the clock; its handler logs the exception and goes on. *)
Definition main_record_trades (t1 t2 t3 t4 t5 t6 : Z) : Stmt.t unit :=
  Stmt.try_except
    (do! _ := record_trade t1 "TEA" 100 BUY 100%Q in
     do! _ := record_trade t2 "POP" 150 SELL 120%Q in
     do! _ := record_trade t3 "ALE" 200 BUY 50%Q in
     do! _ := record_trade t4 "GIN" 100 SELL 90%Q in
     do! _ := record_trade t5 "JOE" 100 BUY 130%Q in
     record_trade t6 "JOE" 130 SELL 130%Q)
    (fun _ => Stmt.pure tt).

(** [main] up to its first [print]: the market is created, loaded from
    the data of the JSON file, which is an argument, and traded on. *)
Definition main_setup (stock_data : list StockData)
    (t1 t2 t3 t4 t5 t6 : Z) : outcome unit :=
  (do! _ := get_stocks stock_data in
   main_record_trades t1 t2 t3 t4 t5 t6) StockMarket_init.

(** ** Fixtures of test/test_stock_market.py *)

Definition fields_ABC : StockFields :=
  mkStockFields "ABC" (Some 8%Q) (Some 100%Q).
Definition fields_XYZ : StockFields :=
  mkStockFields "XYZ" (Some 8%Q) (Some 100%Q).

Definition stock_ABC : Stock := CommonStock fields_ABC.
Definition stock_XYZ : Stock := PreferredStock fields_XYZ (Some 0.02%Q).

Definition data_ABC : StockData :=
  mkStockData (Some "ABC") (Some "common") (Some (Some 8%Q))
    (Some (Some 100%Q)) None.
Definition data_XYZ : StockData :=
  mkStockData (Some "XYZ") (Some "preferred") (Some (Some 8%Q))
    (Some (Some 100%Q)) (Some (Some 0.02%Q)).
Definition data_DEF : StockData :=
  mkStockData (Some "DEF") (Some "unknown") (Some (Some 10%Q))
    (Some (Some 50%Q)) None.

(** The market of [test_record_trade] before its first call. *)
Definition market_ABC : StockMarket :=
  mkStockMarket [] (<["ABC" := stock_ABC]> ∅).

(** The ledger of [test_calculate_volume_weighted_stock_price]: two trades
    of ABC, one and two seconds after the epoch. *)
Definition market_two_trades : StockMarket :=
  mkStockMarket
    [mkTrade stock_ABC 100 BUY 100%Q 1000000;
     mkTrade stock_ABC 100 SELL 105%Q 2000000]
    (<["ABC" := stock_ABC]> ∅).

(** The ledger of [test_calculate_gbce_all_share_index]. *)
Definition market_ABC_XYZ : StockMarket :=
  mkStockMarket
    [mkTrade stock_ABC 100 BUY 100%Q 1000000;
     mkTrade stock_XYZ 100 SELL 105%Q 2000000]
    (<["XYZ" := stock_XYZ]> (<["ABC" := stock_ABC]> ∅)).

(** ** Vocabulary of the statements *)

(** What [Trade.__post_init__] demands of a trade. *)
Definition valid_trade (t : Trade) : Prop :=
  (0 < quantity t)%Z /\ (0 < traded_price t)%Q.

(** The sums the specification writes with a capital sigma, over a list
    of trades: of the quantities, of price times quantity, and of
    ln(price) times quantity. *)
Definition total_quantity_of (ts : list Trade) : Z :=
  fold_right (fun t acc => (quantity t + acc)%Z) 0%Z ts.

Definition total_product_of (ts : list Trade) : Q :=
  fold_right
    (fun t acc => (traded_price t * inject_Z (quantity t) + acc)%Q) 0%Q ts.

Definition log_sum_of (ts : list Trade) : R :=
  fold_right
    (fun t acc => (ln (Q2R (traded_price t)) * IZR (quantity t) + acc)%R)
    0%R ts.

(** Two characters that are the same letter up to case, and two strings
    equal up to the case of their letters: what the specification calls
    a case-insensitive match. *)
Definition is_upper_letter (c : ascii) : bool :=
  let n := nat_of_ascii c in
  (65 <=? n)%nat && (n <=? 90)%nat.

Definition same_letter (a b : ascii) : bool :=
  Ascii.eqb a b
  || (is_upper_letter a && (nat_of_ascii a + 32 =? nat_of_ascii b)%nat)
  || (is_upper_letter b && (nat_of_ascii b + 32 =? nat_of_ascii a)%nat).

Fixpoint eq_ignore_case (a b : string) : bool :=
  match a, b with
  | EmptyString, EmptyString => true
  | String x a', String y b' => same_letter x y && eq_ignore_case a' b'
  | _, _ => false
  end.

(** Every character, for case analyses by enumeration. *)
Definition all_ascii : list ascii := List.map ascii_of_nat (seq 0 256).

(** A stock object of one of the two subclasses. *)
Definition concrete_stock (st : Stock) : Prop :=
  match st with
  | BaseStock _ => False
  | CommonStock _ | PreferredStock _ _ => True
  end.

(** The catalog files every stock under its own symbol and holds no
    object of the base class. *)
Definition catalog_ok (catalog : gmap string Stock) : Prop :=
  forall k st,
    catalog !! k = Some st -> stock_symbol st = k /\ concrete_stock st.

(** The ledger only holds trades on stocks of the two subclasses whose
    symbol is a key of the catalog. *)
Definition ledger_listed (s : StockMarket) : Prop :=
  forall t, In t (trades s) ->
    concrete_stock (stock t)
    /\ is_Some (stocks s !! stock_symbol (stock t)).

(** The stock a record of [stock_data] gives, or the exception it
    raises: the part of the loop body before the catalog is written. *)
Definition stock_of_record (data : StockData) : result Stock :=
  match resolve_stock_type data with
  | None => raise ValueError
  | Some ty => build_stock ty data
  end.

(** A record lacks a key that the constructor of its class reads. *)
Definition missing_field (ty : StockType) (data : StockData) : bool :=
  negb (bool_decide (is_Some (data_symbol data))
        && bool_decide (is_Some (data_last_dividend data))
        && bool_decide (is_Some (data_par_value data))
        && match ty with
           | COMMON => true
           | PREFERRED => bool_decide (is_Some (data_fixed_dividend data))
           end).

(** The stock of the last record of a list that has the symbol [k]. *)
Fixpoint last_loaded (stock_data : list StockData) (k : string)
  : option Stock :=
  match stock_data with
  | [] => None
  | data :: rest =>
      match last_loaded rest k with
      | Some st => Some st
      | None =>
          match stock_of_record data with
          | inr st => if String.eqb (stock_symbol st) k then Some st else None
          | inl _ => None
          end
      end
  end.


(** A request to [record_trade], with the clock reading of the call. *)
Record TradeRequest : Type := mkTradeRequest {
  request_now : Z;
  request_symbol : string;
  request_quantity : Z;
  request_type : TradeType;
  request_price : Q
}.

(** Consecutive calls of [record_trade], as a test or [main] makes
    them: the first one that raises ends the sequence. *)
Fixpoint record_all (requests : list TradeRequest) : Stmt.t unit :=
  match requests with
  | [] => Stmt.pure tt
  | r :: rest =>
      do! _ := record_trade (request_now r) (request_symbol r)
                 (request_quantity r) (request_type r) (request_price r) in
      record_all rest
  end.

(** The trade a request leads to under a catalog, if it is accepted. *)
Definition accepted (catalog : gmap string Stock) (r : TradeRequest)
  : option Trade :=
  match catalog !! request_symbol r with
  | None => None
  | Some st =>
      if (request_quantity r <=? 0)%Z then None
      else if Py.le0 (request_price r) then None
      else Some (mkTrade st (request_quantity r) (request_type r)
                   (request_price r) (request_now r))
  end.

(** The trades of the requests up to the first one that is refused. *)
Fixpoint accepted_prefix (catalog : gmap string Stock)
    (requests : list TradeRequest) : list Trade :=
  match requests with
  | [] => []
  | r :: rest =>
      match accepted catalog r with
      | Some t => t :: accepted_prefix catalog rest
      | None => []
      end
  end.

(** The six requests of [main]. *)
Definition main_requests (t1 t2 t3 t4 t5 t6 : Z) : list TradeRequest :=
  [mkTradeRequest t1 "TEA" 100 BUY 100%Q;
   mkTradeRequest t2 "POP" 150 SELL 120%Q;
   mkTradeRequest t3 "ALE" 200 BUY 50%Q;
   mkTradeRequest t4 "GIN" 100 SELL 90%Q;
   mkTradeRequest t5 "JOE" 100 BUY 130%Q;
   mkTradeRequest t6 "JOE" 130 SELL 130%Q].

(** * Properties *)

(** ** Number tests *)

Section NumberTests.

Local Open Scope Q_scope.

Lemma le0_true (x : Q) : Py.le0 x = true <-> x <= 0.
Proof. apply Qle_bool_iff. Qed.

Lemma le0_false (x : Q) : Py.le0 x = false <-> 0 < x.
Proof.
  split.
  - intros Hb. apply Qnot_le_lt. intros Hle.
    apply le0_true in Hle. congruence.
  - intros Hlt. destruct (Py.le0 x) eqn:Hb; [|reflexivity].
    apply le0_true in Hb. exfalso. exact (Qlt_not_le _ _ Hlt Hb).
Qed.

Lemma eq0_true (x : Q) : Py.eq0 x = true <-> x == 0.
Proof. apply Qeq_bool_iff. Qed.

Lemma eq0_false (x : Q) : Py.eq0 x = false <-> ~ x == 0.
Proof.
  rewrite <- eq0_true.
  destruct (Py.eq0 x); split; intros; congruence.
Qed.

Lemma eq0_false_of_pos (x : Q) : 0 < x -> Py.eq0 x = false.
Proof.
  intros Hx. apply eq0_false. intros Heq. rewrite Heq in Hx.
  exact (Qlt_irrefl 0 Hx).
Qed.

(** Under a positive divisor the division never raises. *)
Lemma div_pos (x y : Q) : 0 < y -> Py.div x y = ret (x / y).
Proof. intros Hy. unfold Py.div. now rewrite (eq0_false_of_pos y Hy). Qed.

Lemma div_nonzero (x y : Q) : ~ y == 0 -> Py.div x y = ret (x / y).
Proof.
  intros Hy. unfold Py.div. apply eq0_false in Hy. now rewrite Hy.
Qed.

Lemma truthy_Some (x : Q) : Py.truthy (Some x) = negb (Py.eq0 x).
Proof. reflexivity. Qed.

End NumberTests.

(** ** Dividend yield *)

Section DividendYield.

Local Open Scope Q_scope.

(** The common yield, branch by branch. *)
Lemma common_yield_unfold (f : StockFields) (market_price : Q) :
  calculate_dividend_yield (CommonStock f) market_price =
  if Py.le0 market_price then raise ValueError
  else match last_dividend f with
       | Some d => if Py.eq0 d then ret 0 else ret (d / market_price)
       | None => ret 0
       end.
Proof.
  cbn [calculate_dividend_yield].
  unfold CommonStockImpl.calculate_dividend_yield.
  destruct (Py.le0 market_price) eqn:Hle; [reflexivity|].
  apply le0_false in Hle.
  destruct (last_dividend f) as [d|]; [|reflexivity].
  rewrite truthy_Some. destruct (Py.eq0 d); cbn; [reflexivity|].
  now rewrite (div_pos d market_price Hle).
Qed.

(** The preferred yield, branch by branch. *)
Lemma preferred_yield_unfold (f : StockFields) (fd : option Q)
    (market_price : Q) :
  calculate_dividend_yield (PreferredStock f fd) market_price =
  if Py.le0 market_price then raise ValueError
  else match fd with
       | None => raise ValueError
       | Some r =>
           if Py.eq0 r then raise ValueError
           else match par_value f with
                | Some p => ret (r * p / market_price)
                | None => raise TypeError
                end
       end.
Proof.
  cbn [calculate_dividend_yield].
  unfold PreferredStockImpl.calculate_dividend_yield.
  destruct (Py.le0 market_price) eqn:Hle; [reflexivity|].
  apply le0_false in Hle.
  destruct fd as [r|]; [|reflexivity].
  rewrite truthy_Some. destruct (Py.eq0 r); cbn; [reflexivity|].
  destruct (par_value f) as [p|]; cbn; [|reflexivity].
  now rewrite (div_pos (r * p) market_price Hle).
Qed.

End DividendYield.

Section DividendYieldClaims.

Local Open Scope Q_scope.



(** The first testable property of the specification. *)
Example common_yield_ABC_100 :
  exists y, calculate_dividend_yield stock_ABC 100 = ret y /\ y == 0.08.
Proof. eexists. split; reflexivity. Qed.

Example common_yield_ABC_0 :
  calculate_dividend_yield stock_ABC 0 = raise ValueError.
Proof. reflexivity. Qed.


Example preferred_yield_zero_fixed_dividend :
  calculate_dividend_yield (PreferredStock fields_XYZ (Some 0)) 100
  = raise ValueError.
Proof. reflexivity. Qed.



(** The second testable property of the specification. *)
Example preferred_yield_XYZ_100 :
  exists y, calculate_dividend_yield stock_XYZ 100 = ret y /\ y == 0.02.
Proof. eexists. split; reflexivity. Qed.

Example preferred_yield_XYZ_0 :
  calculate_dividend_yield stock_XYZ 0 = raise ValueError.
Proof. reflexivity. Qed.

Example preferred_yield_unset :
  calculate_dividend_yield (PreferredStock fields_XYZ None) 100
  = raise ValueError.
Proof. reflexivity. Qed.

(** A Preferred stock without a par value: the product fails. *)
Example preferred_yield_no_par_value :
  calculate_dividend_yield
    (PreferredStock (mkStockFields "XYZ" (Some 8) None) (Some 0.02)) 100
  = raise TypeError.
Proof. reflexivity. Qed.

(** C10.  A [fixed_dividend] that is present and equal to zero makes
    the Preferred yield raise [ValueError] at every positive market
    price, like an unset one; a [last_dividend] that is present and
    equal to zero makes the Common yield return [0]. *)
Theorem C10_zero_dividend (f : StockFields) (z market_price : Q) :
  z == 0 -> 0 < market_price ->
  calculate_dividend_yield (PreferredStock f (Some z)) market_price
  = raise ValueError
  /\ calculate_dividend_yield (PreferredStock f (Some z)) market_price
     = calculate_dividend_yield (PreferredStock f None) market_price
  /\ (last_dividend f = Some z ->
      calculate_dividend_yield (CommonStock f) market_price = ret 0).
Proof.
  intros Hz Hp. apply eq0_true in Hz. apply le0_false in Hp.
  rewrite !preferred_yield_unfold, common_yield_unfold, Hp, Hz.
  repeat split. intros ->. now rewrite Hz.
Qed.

Lemma C10_zero_dividend_witness :
  calculate_dividend_yield (PreferredStock fields_XYZ (Some 0)) 100
  = raise ValueError
  /\ calculate_dividend_yield
       (CommonStock (mkStockFields "ABC" (Some 0) (Some 100))) 100
     = ret 0.
Proof.
  split.
  - refine (proj1 (C10_zero_dividend fields_XYZ 0 100 _ _)); reflexivity.
  - refine (proj2 (proj2 (C10_zero_dividend
              (mkStockFields "ABC" (Some 0) (Some 100)) 0 100 _ _))
              eq_refl); reflexivity.
Defined.

End DividendYieldClaims.

(** ** Price-earnings ratio *)

Section PeRatio.

Local Open Scope Q_scope.

(** The ratio in terms of what the yield does. *)
Lemma pe_ratio_unfold (self : Stock) (market_price : Q) :
  calculate_pe_ratio self market_price =
  match calculate_dividend_yield self market_price with
  | inl _ => ret 0
  | inr dy => if Py.eq0 dy then ret 0 else ret (market_price / dy)
  end.
Proof.
  unfold calculate_pe_ratio.
  destruct (calculate_dividend_yield self market_price) as [e|dy];
    [reflexivity|].
  cbn. destruct (Py.eq0 dy) eqn:Hdy; [reflexivity|].
  apply eq0_false in Hdy. now rewrite (div_nonzero market_price dy Hdy).
Qed.



(** The ratio over each class of stock and each input. *)
Corollary pe_ratio_common (f : StockFields) (market_price : Q) :
  calculate_pe_ratio (CommonStock f) market_price =
  if Py.le0 market_price then ret 0
  else match last_dividend f with
       | Some d =>
           if Py.eq0 d then ret 0
           else ret (market_price / (d / market_price))
       | None => ret 0
       end.
Proof.
  rewrite pe_ratio_unfold, common_yield_unfold.
  destruct (Py.le0 market_price) eqn:Hle; [reflexivity|].
  apply le0_false in Hle.
  destruct (last_dividend f) as [d|]; [|reflexivity].
  destruct (Py.eq0 d) eqn:Hd; [reflexivity|].
  assert (Hq : Py.eq0 (d / market_price) = false).
  { apply eq0_false. apply eq0_false in Hd. intros H. apply Hd.
    assert (Hm : ~ market_price == 0).
    { intros E. rewrite E in Hle. exact (Qlt_irrefl 0 Hle). }
    rewrite <- (Qmult_div_r d market_price Hm), H. apply Qmult_0_r. }
  cbn. now rewrite Hq.
Qed.

Example pe_ratio_base_class :
  calculate_pe_ratio (BaseStock fields_ABC) 100 = ret 0.
Proof. reflexivity. Qed.

Example pe_ratio_XYZ_unset :
  calculate_pe_ratio (PreferredStock fields_XYZ None) 100 = ret 0.
Proof. reflexivity. Qed.

End PeRatio.

(** ** Recording trades *)

Section RecordTrade.

Local Open Scope Q_scope.

Lemma Trade_new_unfold (now : Z) (st : Stock) (q : Z) (ty : TradeType)
    (p : Q) :
  Trade_new now st q ty p =
  if (q <=? 0)%Z then raise ValueError
  else if Py.le0 p then raise ValueError
  else ret (mkTrade st q ty p now).
Proof.
  unfold Trade_new, Trade_post_init. cbn.
  destruct (q <=? 0)%Z; [reflexivity|].
  destruct (Py.le0 p); reflexivity.
Qed.

(** A constructed trade passed the validation. *)
Lemma Trade_new_valid (now : Z) (st : Stock) (q : Z) (ty : TradeType)
    (p : Q) (t : Trade) :
  Trade_new now st q ty p = ret t ->
  t = mkTrade st q ty p now /\ valid_trade t.
Proof.
  rewrite Trade_new_unfold.
  destruct (q <=? 0)%Z eqn:Hq; [discriminate|].
  destruct (Py.le0 p) eqn:Hp; [discriminate|].
  intros [= <-]. split; [reflexivity|]. split; cbn.
  - apply Z.leb_gt in Hq. exact Hq.
  - now apply le0_false.
Qed.

Lemma record_trade_unfold (now : Z) (sym : string) (q : Z) (ty : TradeType)
    (p : Q) (self : StockMarket) :
  record_trade now sym q ty p self =
  match stocks self !! sym with
  | None => Raised ValueError self
  | Some st =>
      if (q <=? 0)%Z then Raised ValueError self
      else if Py.le0 p then Raised ValueError self
      else Returned tt
             (mkStockMarket (trades self ++ [mkTrade st q ty p now])
                (stocks self))
  end.
Proof.
  unfold record_trade, Stmt.try_except, Stmt.seq, Stmt.stocks_get.
  destruct (stocks self !! sym) as [st|]; [|reflexivity].
  unfold Stmt.eval. rewrite Trade_new_unfold.
  destruct (q <=? 0)%Z; [reflexivity|].
  destruct (Py.le0 p); reflexivity.
Qed.





(** The three failures of the tests, and where each leaves the market. *)
Example record_trade_unknown_symbol :
  record_trade 0 "DEF" 100 BUY 100 market_ABC = Raised ValueError market_ABC.
Proof. reflexivity. Qed.

Example record_trade_negative_quantity :
  record_trade 0 "ABC" (-100) SELL 100 market_ABC
  = Raised ValueError market_ABC.
Proof. reflexivity. Qed.

Example record_trade_zero_price :
  record_trade 0 "ABC" 100 BUY 0 market_ABC = Raised ValueError market_ABC.
Proof. reflexivity. Qed.

End RecordTrade.

(** ** Loading stocks *)

Section GetStocks.

(** The handler of [get_stocks] re-raises: the method is its loop. *)
Lemma get_stocks_eq_loop (stock_data : list StockData) (self : StockMarket) :
  get_stocks stock_data self = get_stocks_loop stock_data self.
Proof.
  unfold get_stocks, Stmt.try_except.
  destruct (get_stocks_loop stock_data self); reflexivity.
Qed.

(** A constructed stock carries the fields of its record. *)
Lemma build_stock_ret (ty : StockType) (data : StockData) (st : Stock) :
  build_stock ty data = ret st <->
  exists sym ld pv,
    data_symbol data = Some sym
    /\ data_last_dividend data = Some ld
    /\ data_par_value data = Some pv
    /\ match ty with
       | COMMON => st = CommonStock (mkStockFields sym ld pv)
       | PREFERRED =>
           exists fd, data_fixed_dividend data = Some fd
                      /\ st = PreferredStock (mkStockFields sym ld pv) fd
       end.
Proof.
  unfold build_stock.
  destruct (data_symbol data) as [sym|]; cbn;
    [|split; [discriminate | intros (?&?&?&[=]&_)]].
  destruct (data_last_dividend data) as [ld|]; cbn;
    [|split; [discriminate | intros (?&?&?&_&[=]&_)]].
  destruct (data_par_value data) as [pv|]; cbn;
    [|split; [discriminate | intros (?&?&?&_&_&[=]&_)]].
  destruct ty.
  - split.
    + intros [= <-]. now exists sym, ld, pv.
    + intros (?&?&?&[= <-]&[= <-]&[= <-]&->). reflexivity.
  - destruct (data_fixed_dividend data) as [fd|]; cbn; split.
    + intros [= <-]. exists sym, ld, pv. repeat split. now exists fd.
    + intros (?&?&?&[= <-]&[= <-]&[= <-]&fd'&[= <-]&->). reflexivity.
    + discriminate.
    + intros (?&?&?&_&_&_&fd'&[=]&_).
Qed.

Lemma build_stock_symbol (ty : StockType) (data : StockData) (st : Stock) :
  build_stock ty data = ret st -> data_symbol data = Some (stock_symbol st).
Proof.
  intros H. apply build_stock_ret in H.
  destruct H as (sym & ld & pv & Hs & _ & _ & H).
  destruct ty; [subst st | destruct H as (fd & _ & ->)]; exact Hs.
Qed.

(** One record: rejected without a change, or its stock stored under its
    symbol. *)
Lemma get_stocks_step_unfold (data : StockData) (self : StockMarket) :
  get_stocks_step data self =
  match resolve_stock_type data with
  | None => Raised ValueError self
  | Some ty =>
      match build_stock ty data with
      | inl e => Raised e self
      | inr st =>
          Returned tt
            (mkStockMarket (trades self)
               (<[stock_symbol st := st]> (stocks self)))
      end
  end.
Proof.
  unfold get_stocks_step.
  destruct (resolve_stock_type data) as [ty|]; [|reflexivity].
  unfold Stmt.seq, Stmt.eval.
  destruct (build_stock ty data) as [e|st] eqn:Hb; [reflexivity|].
  now rewrite (build_stock_symbol ty data st Hb).
Qed.

Lemma get_stocks_loop_app (l1 l2 : list StockData) (self : StockMarket) :
  get_stocks_loop (l1 ++ l2) self =
  match get_stocks_loop l1 self with
  | Returned _ self1 => get_stocks_loop l2 self1
  | Raised e self1 => Raised e self1
  end.
Proof.
  revert self. induction l1 as [|data l1 IH]; intros self; [reflexivity|].
  cbn [app get_stocks_loop]. unfold Stmt.seq.
  destruct (get_stocks_step data self) as [[] self1|e self1];
    [apply IH | reflexivity].
Qed.

(** Loading stocks never touches the ledger. *)
Lemma get_stocks_step_trades (data : StockData) (self : StockMarket) :
  trades (state_of (get_stocks_step data self)) = trades self.
Proof.
  rewrite get_stocks_step_unfold.
  destruct (resolve_stock_type data) as [ty|]; [|reflexivity].
  destruct (build_stock ty data); reflexivity.
Qed.

Lemma get_stocks_trades (stock_data : list StockData) (self : StockMarket) :
  trades (state_of (get_stocks stock_data self)) = trades self.
Proof.
  rewrite get_stocks_eq_loop. revert self.
  induction stock_data as [|data rest IH]; intros self; [reflexivity|].
  cbn [get_stocks_loop]. unfold Stmt.seq.
  pose proof (get_stocks_step_trades data self) as Hstep.
  destruct (get_stocks_step data self) as [[] self1|e self1]; cbn in Hstep.
  - now rewrite IH.
  - exact Hstep.
Qed.

End GetStocks.

(** ** The ledger invariant *)

Section LedgerInvariant.

Lemma total_quantity_of_pos (ts : list Trade) :
  Forall valid_trade ts -> ts <> [] -> (0 < total_quantity_of ts)%Z.
Proof.
  induction 1 as [|t ts [Hq _] Hts IH]; [congruence|].
  intros _. change (0 < quantity t + total_quantity_of ts)%Z.
  destruct ts as [|t' ts'].
  - change (total_quantity_of []) with 0%Z. lia.
  - assert (0 < total_quantity_of (t' :: ts'))%Z by (apply IH; congruence).
    lia.
Qed.

Lemma valid_filter (f : Trade -> bool) (ts : list Trade) :
  Forall valid_trade ts -> Forall valid_trade (List.filter f ts).
Proof.
  rewrite !List.Forall_forall. intros H t Ht.
  apply List.filter_In in Ht. now apply H.
Qed.

Lemma record_trade_valid (now : Z) (sym : string) (q : Z) (ty : TradeType)
    (p : Q) (self : StockMarket) :
  Forall valid_trade (trades self) ->
  Forall valid_trade (trades (state_of (record_trade now sym q ty p self))).
Proof.
  intros H. rewrite record_trade_unfold.
  destruct (stocks self !! sym) as [st|]; [|exact H].
  destruct (q <=? 0)%Z eqn:Hq; [exact H|].
  destruct (Py.le0 p) eqn:Hp; [exact H|].
  cbn. apply Forall_app. split; [exact H|].
  constructor; [|constructor]. split; cbn.
  - now apply Z.leb_gt in Hq.
  - now apply le0_false.
Qed.

Lemma reachable_valid (self : StockMarket) :
  reachable self -> Forall valid_trade (trades self).
Proof.
  induction 1 as [|self stock_data _ IH|self now sym q ty p _ IH].
  - constructor.
  - now rewrite get_stocks_trades.
  - now apply record_trade_valid.
Qed.



End LedgerInvariant.

(** ** Type tags *)

Section TypeTags.

Lemma all_ascii_complete (c : ascii) : In c all_ascii.
Proof.
  unfold all_ascii. rewrite <- (ascii_nat_embedding c).
  apply List.in_map. apply List.in_seq.
  pose proof (nat_ascii_bounded c). lia.
Qed.

(** Upper-casing identifies exactly the letters that differ by case. *)
Lemma upper_ascii_same_letter (c d : ascii) :
  Ascii.eqb (upper_ascii c) (upper_ascii d) = same_letter c d.
Proof.
  assert (Hall :
    forallb (fun x =>
      forallb (fun y =>
        Bool.eqb (Ascii.eqb (upper_ascii x) (upper_ascii y))
                 (same_letter x y)) all_ascii) all_ascii = true)
    by (vm_compute; reflexivity).
  rewrite List.forallb_forall in Hall.
  specialize (Hall c (all_ascii_complete c)).
  rewrite List.forallb_forall in Hall.
  specialize (Hall d (all_ascii_complete d)).
  now apply Bool.eqb_prop in Hall.
Qed.

Lemma upper_eq_ignore_case (a b : string) :
  String.eqb (upper a) (upper b) = eq_ignore_case a b.
Proof.
  revert b. induction a as [|x a IH]; intros [|y b]; try reflexivity.
  cbn. rewrite <- upper_ascii_same_letter, <- IH.
  destruct (Ascii.eqb (upper_ascii x) (upper_ascii y)); reflexivity.
Qed.

(** The tag is matched against the two member names without regard to
    case; a missing tag matches nothing. *)
Lemma resolve_stock_type_spec (data : StockData) :
  resolve_stock_type data =
  match data_type data with
  | Some ty =>
      if eq_ignore_case ty "common" then Some COMMON
      else if eq_ignore_case ty "preferred" then Some PREFERRED
      else None
  | None => None
  end.
Proof.
  unfold resolve_stock_type, StockType_members.
  destruct (data_type data) as [ty|]; [|reflexivity].
  now rewrite <- !upper_eq_ignore_case.
Qed.

Example resolve_mixed_case :
  resolve_stock_type
    (mkStockData (Some "ABC") (Some "cOmMoN") None None None) = Some COMMON
  /\ resolve_stock_type
       (mkStockData (Some "XYZ") (Some "Preferred") None None None)
     = Some PREFERRED
  /\ resolve_stock_type data_DEF = None
  /\ resolve_stock_type (mkStockData (Some "GIN") None None None None) = None.
Proof. repeat split. Qed.

End TypeTags.

(** ** The loop of [get_stocks] *)

Section GetStocksClaims.

Lemma get_stocks_app (l1 l2 : list StockData) (self : StockMarket) :
  get_stocks (l1 ++ l2) self =
  match get_stocks l1 self with
  | Returned _ self1 => get_stocks l2 self1
  | Raised e self1 => Raised e self1
  end.
Proof.
  rewrite !get_stocks_eq_loop, get_stocks_loop_app.
  destruct (get_stocks_loop l1 self); [now rewrite get_stocks_eq_loop|].
  reflexivity.
Qed.

Lemma get_stocks_cons (data : StockData) (rest : list StockData)
    (self : StockMarket) :
  get_stocks (data :: rest) self =
  match get_stocks_step data self with
  | Returned _ self1 => get_stocks rest self1
  | Raised e self1 => Raised e self1
  end.
Proof.
  rewrite get_stocks_eq_loop. cbn [get_stocks_loop]. unfold Stmt.seq.
  destruct (get_stocks_step data self); [now rewrite get_stocks_eq_loop|].
  reflexivity.
Qed.

(** A record whose type is recognised but which lacks a field the
    constructor reads: the lookup fails before anything is stored. *)
Lemma get_stocks_step_missing_field (data : StockData) (ty : StockType)
    (self : StockMarket) :
  resolve_stock_type data = Some ty ->
  raises (build_stock ty data) ->
  exists e, get_stocks_step data self = Raised e self.
Proof.
  intros Hty Hb. rewrite get_stocks_step_unfold, Hty.
  destruct (build_stock ty data) as [e|st]; [now exists e | destruct Hb].
Qed.

(** C7.  [get_stocks] handles the records one after the other, from the
    state the records before have left.  It matches the type tag of a
    record against COMMON and PREFERRED without regard to case.  At a
    record whose tag is missing or matches neither it raises
    [ValueError]; the record is not added and the market keeps what the
    earlier records of the call have stored.  At a record with a
    recognised tag it stores the constructed stock under its symbol,
    replacing whatever the catalog had there and nothing else. *)
Theorem C7_get_stocks (self mid : StockMarket) (done rest : list StockData)
    (data : StockData) :
  get_stocks done self = Returned tt mid ->
  get_stocks (done ++ data :: rest) self =
    match get_stocks_step data mid with
    | Returned _ self1 => get_stocks rest self1
    | Raised e self1 => Raised e self1
    end
  /\ resolve_stock_type data =
     match data_type data with
     | Some ty =>
         if eq_ignore_case ty "common" then Some COMMON
         else if eq_ignore_case ty "preferred" then Some PREFERRED
         else None
     | None => None
     end
  /\ (resolve_stock_type data = None ->
      get_stocks (done ++ data :: rest) self = Raised ValueError mid)
  /\ (forall sym ld pv,
        data_symbol data = Some sym ->
        data_last_dividend data = Some ld ->
        data_par_value data = Some pv ->
        forall st,
          (resolve_stock_type data = Some COMMON
           /\ st = CommonStock (mkStockFields sym ld pv))
          \/ (exists fd,
                resolve_stock_type data = Some PREFERRED
                /\ data_fixed_dividend data = Some fd
                /\ st = PreferredStock (mkStockFields sym ld pv) fd) ->
          get_stocks (done ++ [data]) self =
            Returned tt
              (mkStockMarket (trades mid) (<[sym := st]> (stocks mid)))
          /\ stocks (state_of (get_stocks (done ++ [data]) self)) !! sym
             = Some st
          /\ forall other, other <> sym ->
               stocks (state_of (get_stocks (done ++ [data]) self)) !! other
               = stocks mid !! other).
Proof.
  intros Hdone.
  assert (Hseq : forall tail,
    get_stocks (done ++ data :: tail) self =
    match get_stocks_step data mid with
    | Returned _ self1 => get_stocks tail self1
    | Raised e self1 => Raised e self1
    end).
  { intros tail. now rewrite get_stocks_app, Hdone, get_stocks_cons. }
  split; [apply Hseq|].
  split; [apply resolve_stock_type_spec|].
  split.
  - intros Hnone. now rewrite Hseq, get_stocks_step_unfold, Hnone.
  - intros sym ld pv Hsym Hld Hpv st Hst.
    assert (Hstep : get_stocks_step data mid =
      Returned tt (mkStockMarket (trades mid) (<[sym := st]> (stocks mid)))).
    { rewrite get_stocks_step_unfold.
      destruct Hst as [[Hty ->]|(fd & Hty & Hfd & ->)]; rewrite Hty.
      - assert (Hb : build_stock COMMON data
                     = ret (CommonStock (mkStockFields sym ld pv))).
        { apply build_stock_ret. now exists sym, ld, pv. }
        now rewrite Hb.
      - assert (Hb : build_stock PREFERRED data
                     = ret (PreferredStock (mkStockFields sym ld pv) fd)).
        { apply build_stock_ret. exists sym, ld, pv.
          repeat split; try assumption. now exists fd. }
        now rewrite Hb. }
    rewrite Hseq, Hstep. cbn.
    split; [reflexivity|]. split.
    + apply lookup_insert_eq.
    + intros other Hother. now apply lookup_insert_ne.
Qed.

Lemma C7_get_stocks_witness :
  get_stocks [data_ABC; data_DEF; data_XYZ] StockMarket_init
  = Raised ValueError market_ABC.
Proof.
  refine (proj1 (proj2 (proj2
            (C7_get_stocks StockMarket_init market_ABC [data_ABC]
               [data_XYZ] data_DEF _))) _);
    reflexivity.
Defined.

(** The loads of [test_hydrate_stocks]. *)
Example get_stocks_two_records :
  get_stocks [data_ABC; data_XYZ] StockMarket_init =
  Returned tt
    (mkStockMarket []
       (<["XYZ" := stock_XYZ]> (<["ABC" := stock_ABC]> ∅))).
Proof. reflexivity. Qed.

Example get_stocks_unknown_type :
  get_stocks [data_DEF] market_ABC = Raised ValueError market_ABC.
Proof. reflexivity. Qed.

(** A later record with the symbol of an earlier one takes its place. *)
Example get_stocks_overwrites :
  stocks
    (state_of
       (get_stocks
          [data_ABC;
           mkStockData (Some "ABC") (Some "PREFERRED") (Some None)
             (Some (Some 100%Q)) (Some (Some 0.02%Q))]
          StockMarket_init)) !! "ABC"
  = Some (PreferredStock (mkStockFields "ABC" None (Some 100%Q))
            (Some 0.02%Q)).
Proof. reflexivity. Qed.

End GetStocksClaims.

(** ** Volume-weighted stock price *)

Section VolumeWeightedPrice.

Local Open Scope Q_scope.

Lemma relevant_true (sym : string) (since : Z) (t : Trade) :
  relevant sym since t = true <->
  symbol (fields (stock t)) = sym /\ (since < timestamp t)%Z.
Proof.
  unfold relevant. rewrite Bool.andb_true_iff, String.eqb_eq, Z.ltb_lt.
  reflexivity.
Qed.


(** The loop adds up the two sums of the specification. *)
Lemma vwsp_loop_quantity (ts : list Trade) (acc : Q * Z) :
  snd (fold_left vwsp_step ts acc) = (snd acc + total_quantity_of ts)%Z.
Proof.
  revert acc. induction ts as [|t ts IH]; intros acc.
  - cbn. lia.
  - cbn [fold_left]. rewrite IH.
    change (total_quantity_of (t :: ts))
      with (quantity t + total_quantity_of ts)%Z.
    cbn [vwsp_step snd]. lia.
Qed.

Lemma vwsp_loop_product (ts : list Trade) (acc : Q * Z) :
  fst (fold_left vwsp_step ts acc) == fst acc + total_product_of ts.
Proof.
  revert acc. induction ts as [|t ts IH]; intros acc.
  - cbn. now rewrite Qplus_0_r.
  - cbn [fold_left]. rewrite IH.
    change (total_product_of (t :: ts))
      with (traded_price t * inject_Z (quantity t) + total_product_of ts).
    cbn [vwsp_step fst]. now rewrite Qplus_assoc.
Qed.

Lemma inject_Z_eq0 (z : Z) : Py.eq0 (inject_Z z) = (z =? 0)%Z.
Proof.
  unfold Py.eq0, Qeq_bool, inject_Z. cbn.
  now rewrite Z.mul_1_r.
Qed.

(** The price in terms of the two sums over the relevant trades. *)
Lemma vwsp_unfold (self : StockMarket) (now : Z) (sym : string) :
  exists v,
    calculate_volume_weighted_stock_price self now sym = ret v
    /\ if (total_quantity_of
             (relevant_trades self sym (now - minutes_15)) =? 0)%Z
       then v = 0
       else v == total_product_of
                   (relevant_trades self sym (now - minutes_15))
                 / inject_Z
                     (total_quantity_of
                        (relevant_trades self sym (now - minutes_15))).
Proof.
  unfold calculate_volume_weighted_stock_price.
  set (rel := relevant_trades self sym (now - minutes_15)).
  cbv zeta.
  pose proof (vwsp_loop_quantity rel (0, 0%Z)) as Hq.
  pose proof (vwsp_loop_product rel (0, 0%Z)) as Hp.
  cbn [fst snd] in Hq, Hp. rewrite Z.add_0_l in Hq.
  rewrite Qplus_0_l in Hp.
  rewrite Hq.
  destruct (total_quantity_of rel =? 0)%Z eqn:Hz.
  - exists 0. split; reflexivity.
  - unfold Py.div. rewrite inject_Z_eq0, Hz. cbn.
    eexists. split; [reflexivity|]. now rewrite Hp.
Qed.



Example vwsp_two_trades :
  exists v,
    calculate_volume_weighted_stock_price market_two_trades 60000000 "ABC"
    = ret v
    /\ v == 102.5.
Proof. eexists. split; [vm_compute; reflexivity | reflexivity]. Qed.

(** No trade of the symbol, and trades that are too old: the second at
    exactly fifteen minutes is already out. *)
Example vwsp_no_trades :
  calculate_volume_weighted_stock_price market_ABC 60000000 "ABC" = ret 0.
Proof. reflexivity. Qed.

Example vwsp_window_is_strict :
  relevant_trades market_two_trades "ABC" (902000000 - minutes_15) = []
  /\ calculate_volume_weighted_stock_price market_two_trades 902000000 "ABC"
     = ret 0
  /\ relevant_trades market_two_trades "ABC" (901999999 - minutes_15)
     = [mkTrade stock_ABC 100 SELL 105 2000000].
Proof. repeat split. Qed.

(** On a market reached through the methods the divisor of a non-empty
    selection is positive, so the quotient is what is returned. *)
Corollary vwsp_reachable (self : StockMarket) (now : Z) (sym : string) :
  reachable self ->
  relevant_trades self sym (now - minutes_15) <> [] ->
  exists v,
    calculate_volume_weighted_stock_price self now sym = ret v
    /\ v == total_product_of (relevant_trades self sym (now - minutes_15))
            / inject_Z
                (total_quantity_of
                   (relevant_trades self sym (now - minutes_15))).
Proof.
  intros Hreach Hne.
  assert (Hpos :
    (0 < total_quantity_of (relevant_trades self sym (now - minutes_15)))%Z).
  { apply total_quantity_of_pos; [|exact Hne].
    apply valid_filter. now apply reachable_valid. }
  destruct (vwsp_unfold self now sym) as (v & Hv & Hcase).
  exists v. split; [exact Hv|].
  destruct (total_quantity_of _ =? 0)%Z eqn:Hz; [|exact Hcase].
  apply Z.eqb_eq in Hz. lia.
Qed.

End VolumeWeightedPrice.

(** ** All-share index *)

Section AllShareIndex.

Local Open Scope R_scope.

Lemma sum_quantity_spec (ts : list Trade) :
  sum_quantity ts = total_quantity_of ts.
Proof.
  unfold sum_quantity.
  assert (H : forall acc,
    fold_left (fun a t => (a + quantity t)%Z) ts acc
    = (acc + total_quantity_of ts)%Z).
  { induction ts as [|t ts IH]; intros acc.
    - cbn. lia.
    - cbn [fold_left]. rewrite IH.
      change (total_quantity_of (t :: ts))
        with (quantity t + total_quantity_of ts)%Z.
      lia. }
  rewrite H. lia.
Qed.

(** With positive prices every logarithm is defined and the sum is the
    one of the specification. *)
Lemma sum_log_quantity_ok (ts : list Trade) (acc : R) :
  Forall (fun t => (0 < traded_price t)%Q) ts ->
  sum_log_quantity acc ts = ret (acc + log_sum_of ts).
Proof.
  intros H. revert acc. induction H as [|t ts Ht _ IH]; intros acc.
  - cbn. unfold ret. f_equal. ring.
  - cbn [sum_log_quantity]. unfold Py.log.
    apply le0_false in Ht. rewrite Ht. cbn [bind ret]. rewrite IH.
    unfold ret. f_equal.
    change (log_sum_of (t :: ts))
      with (ln (Q2R (traded_price t)) * IZR (quantity t) + log_sum_of ts).
    ring.
Qed.


(** The index, branch by branch. *)
Lemma gbce_unfold (self : StockMarket) :
  calculate_gbce_all_share_index self =
  match trades self with
  | [] => ret 0
  | _ :: _ =>
      match sum_log_quantity 0 (trades self) with
      | inl _ => ret 0
      | inr log_sum =>
          if (total_quantity_of (trades self) =? 0)%Z then ret 0
          else ret (exp (log_sum / IZR (total_quantity_of (trades self))))
      end
  end.
Proof.
  unfold calculate_gbce_all_share_index.
  destruct (trades self) as [|t ts]; [reflexivity|].
  destruct (sum_log_quantity 0 (t :: ts)) as [e|log_sum]; [reflexivity|].
  cbn [bind]. cbv zeta. rewrite sum_quantity_spec. unfold rdiv.
  destruct (total_quantity_of (t :: ts) =? 0)%Z; reflexivity.
Qed.




(** A trade whose price is not positive, which only a ledger written
    from outside the methods can hold, turns the index into [0]. *)
Example gbce_log_failure :
  calculate_gbce_all_share_index
    (mkStockMarket [mkTrade stock_ABC 100 BUY 0%Q 0] ∅) = ret 0.
Proof. reflexivity. Qed.

Lemma gbce_two_trades_sqrt :
  calculate_gbce_all_share_index market_ABC_XYZ = ret (sqrt 10500).
Proof.
  rewrite gbce_unfold.
  change (trades market_ABC_XYZ)
    with [mkTrade stock_ABC 100 BUY 100%Q 1000000;
          mkTrade stock_XYZ 100 SELL 105%Q 2000000].
  rewrite sum_log_quantity_ok by (repeat constructor).
  change (total_quantity_of _) with 200%Z. cbn [Z.eqb Pos.eqb].
  unfold ret. f_equal. unfold log_sum_of. cbn [fold_right traded_price quantity].
  replace (Q2R 100) with 100 by (unfold Q2R; cbn; lra).
  replace (Q2R 105) with 105 by (unfold Q2R; cbn; lra).
  symmetry. apply sqrt_lem_1; [lra | left; apply exp_pos |].
  rewrite <- exp_plus.
  replace ((0 + (ln 100 * 100 + (ln 105 * 100 + 0))) / 200
           + (0 + (ln 100 * 100 + (ln 105 * 100 + 0))) / 200)
    with (ln 100 + ln 105) by field.
  rewrite exp_plus, !exp_ln by lra. lra.
Qed.

(** The seventh testable property of the specification: the index of
    the two trades is the square root of 100 * 105, about 102.4695. *)
Example gbce_ABC_XYZ :
  calculate_gbce_all_share_index market_ABC_XYZ = ret (sqrt 10500)
  /\ 102.4695 < sqrt 10500 < 102.4696.
Proof.
  split.
  - apply gbce_two_trades_sqrt.
  - split.
    + rewrite <- (sqrt_square 102.4695) by lra.
      apply sqrt_lt_1_alt. lra.
    + rewrite <- (sqrt_square 102.4696) by lra.
      apply sqrt_lt_1_alt. lra.
Qed.

End AllShareIndex.


(** ** Invariants of the catalog and of the ledger *)

Section MarketInvariants.

(** A property kept by every record of a load is kept by the load. *)
Lemma get_stocks_preserves (P : StockMarket -> Prop) :
  (forall data s, P s -> P (state_of (get_stocks_step data s))) ->
  forall stock_data s, P s -> P (state_of (get_stocks stock_data s)).
Proof.
  intros Hstep stock_data s. rewrite get_stocks_eq_loop. revert s.
  induction stock_data as [|data rest IH]; intros s Hs; [exact Hs|].
  cbn [get_stocks_loop]. unfold Stmt.seq.
  pose proof (Hstep data s Hs) as Hs1.
  destruct (get_stocks_step data s) as [[] s1|e s1]; cbn in Hs1.
  - now apply IH.
  - exact Hs1.
Qed.

(** Induction over the reachable markets, one record or one trade at a
    time. *)
Lemma reachable_invariant (P : StockMarket -> Prop) :
  P StockMarket_init ->
  (forall data s, P s -> P (state_of (get_stocks_step data s))) ->
  (forall now sym q ty p s,
     P s -> P (state_of (record_trade now sym q ty p s))) ->
  forall s, reachable s -> P s.
Proof.
  intros Hinit Hstep Hrec s Hreach.
  induction Hreach as [|s stock_data _ IH|s now sym q ty p _ IH].
  - exact Hinit.
  - now apply get_stocks_preserves.
  - now apply Hrec.
Qed.

Lemma build_stock_concrete (ty : StockType) (data : StockData) (st : Stock) :
  build_stock ty data = ret st -> concrete_stock st.
Proof.
  intros H. apply build_stock_ret in H.
  destruct H as (sym & ld & pv & _ & _ & _ & H).
  destruct ty; [subst st | destruct H as (fd & _ & ->)]; exact I.
Qed.

Lemma get_stocks_step_catalog_ok (data : StockData) (s : StockMarket) :
  catalog_ok (stocks s) ->
  catalog_ok (stocks (state_of (get_stocks_step data s))).
Proof.
  intros Hok. rewrite get_stocks_step_unfold.
  destruct (resolve_stock_type data) as [ty|]; [|exact Hok].
  destruct (build_stock ty data) as [e|st] eqn:Hb; [exact Hok|].
  cbn. intros k st'. rewrite lookup_insert.
  destruct (decide (stock_symbol st = k)) as [<-|Hne].
  - intros [= <-]. split; [reflexivity|].
    exact (build_stock_concrete ty data st Hb).
  - apply Hok.
Qed.

Lemma record_trade_stocks (now : Z) (sym : string) (q : Z) (ty : TradeType)
    (p : Q) (s : StockMarket) :
  stocks (state_of (record_trade now sym q ty p s)) = stocks s.
Proof.
  rewrite record_trade_unfold.
  destruct (stocks s !! sym); [|reflexivity].
  destruct (q <=? 0)%Z; [reflexivity|].
  destruct (Py.le0 p); reflexivity.
Qed.

Lemma reachable_catalog_ok (s : StockMarket) :
  reachable s -> catalog_ok (stocks s).
Proof.
  revert s. apply (reachable_invariant (fun s => catalog_ok (stocks s))).
  - intros k st. cbn. rewrite lookup_empty. discriminate.
  - intros data s0. apply get_stocks_step_catalog_ok.
  - intros now sym q ty p s0 Hok. now rewrite record_trade_stocks.
Qed.

(** X1.  In every market reached through [get_stocks] and
    [record_trade], a stock found in the catalog under a key carries
    that key as its symbol and is a Common or a Preferred stock, so that
    its yield is never the base class's [NotImplementedError]. *)
Theorem catalog_keys_are_symbols (self : StockMarket) (k : string)
    (st : Stock) (market_price : Q) :
  reachable self ->
  stocks self !! k = Some st ->
  stock_symbol st = k
  /\ ((exists f, st = CommonStock f) \/ (exists f fd, st = PreferredStock f fd))
  /\ calculate_dividend_yield st market_price <> raise NotImplementedError.
Proof.
  intros Hreach Hk.
  destruct (reachable_catalog_ok self Hreach k st Hk) as [Hsym Hc].
  split; [exact Hsym|].
  destruct st as [f|f|f fd]; [destruct Hc| |].
  - split; [left; now exists f|].
    rewrite common_yield_unfold.
    destruct (Py.le0 market_price); [discriminate|].
    destruct (last_dividend f) as [d|]; [destruct (Py.eq0 d)|];
      discriminate.
  - split; [right; now exists f, fd|].
    rewrite preferred_yield_unfold.
    destruct (Py.le0 market_price); [discriminate|].
    destruct fd as [r|]; [|discriminate].
    destruct (Py.eq0 r); [discriminate|].
    destruct (par_value f); discriminate.
Qed.

Lemma catalog_keys_are_symbols_witness :
  stock_symbol stock_XYZ = "XYZ"
  /\ ((exists f, stock_XYZ = CommonStock f)
      \/ (exists f fd, stock_XYZ = PreferredStock f fd))
  /\ calculate_dividend_yield stock_XYZ 100 <> raise NotImplementedError.
Proof.
  refine (catalog_keys_are_symbols
            (state_of (get_stocks [data_ABC; data_XYZ] StockMarket_init))
            "XYZ" stock_XYZ 100%Q _ _).
  - apply reachable_get_stocks, reachable_init.
  - reflexivity.
Defined.

(** Loading a record never removes a key of the catalog. *)
Lemma get_stocks_step_keys (data : StockData) (s : StockMarket)
    (k : string) :
  is_Some (stocks s !! k) ->
  is_Some (stocks (state_of (get_stocks_step data s)) !! k).
Proof.
  intros Hk. rewrite get_stocks_step_unfold.
  destruct (resolve_stock_type data) as [ty|]; [|exact Hk].
  destruct (build_stock ty data) as [e|st]; [exact Hk|].
  cbn. rewrite lookup_insert. now destruct (decide (stock_symbol st = k)).
Qed.


(** What one call of [record_trade] does to the ledger. *)
Lemma record_trade_ledger (now : Z) (sym : string) (q : Z) (ty : TradeType)
    (p : Q) (s : StockMarket) :
  trades (state_of (record_trade now sym q ty p s)) = trades s
  \/ exists st,
       stocks s !! sym = Some st
       /\ valid_trade (mkTrade st q ty p now)
       /\ trades (state_of (record_trade now sym q ty p s))
          = trades s ++ [mkTrade st q ty p now].
Proof.
  rewrite record_trade_unfold.
  destruct (stocks s !! sym) as [st|]; [|now left].
  destruct (q <=? 0)%Z eqn:Hq; [now left|].
  destruct (Py.le0 p) eqn:Hp; [now left|].
  right. exists st. repeat split.
  - now apply Z.leb_gt in Hq.
  - now apply le0_false.
Qed.

Lemma reachable_listed (s : StockMarket) :
  reachable s -> catalog_ok (stocks s) /\ ledger_listed s.
Proof.
  revert s.
  apply (reachable_invariant
           (fun s => catalog_ok (stocks s) /\ ledger_listed s)).
  - split.
    + intros k st. cbn. rewrite lookup_empty. discriminate.
    + intros t [].
  - intros data s [Hok Hl]. split; [now apply get_stocks_step_catalog_ok|].
    intros t. rewrite get_stocks_step_trades. intros Ht.
    destruct (Hl t Ht) as [Hc Hk]. split; [exact Hc|].
    now apply get_stocks_step_keys.
  - intros now sym q ty p s [Hok Hl]. split.
    + now rewrite record_trade_stocks.
    + intros t. rewrite record_trade_stocks.
      destruct (record_trade_ledger now sym q ty p s)
        as [->|(st & Hst & _ & ->)]; [apply Hl|].
      rewrite List.in_app_iff. intros [Ht|[<-|[]]]; [now apply Hl|].
      destruct (Hok sym st Hst) as [Hsym Hc]. cbn [stock].
      split; [exact Hc|]. rewrite Hsym, Hst. now exists st.
Qed.

(** X2.  In every market reached through [get_stocks] and
    [record_trade], each trade of the ledger is on a Common or Preferred
    stock whose symbol is a key of the catalog: no load has removed the
    symbol since the trade was recorded. *)
Theorem ledger_symbols_are_listed (self : StockMarket) (t : Trade) :
  reachable self ->
  In t (trades self) ->
  is_Some (stocks self !! symbol (fields (stock t)))
  /\ ((exists f, stock t = CommonStock f)
      \/ (exists f fd, stock t = PreferredStock f fd)).
Proof.
  intros Hreach Ht.
  destruct (proj2 (reachable_listed self Hreach) t Ht) as [Hc Hk].
  split; [exact Hk|].
  destruct (stock t) as [f|f|f fd]; [destruct Hc| |].
  - left. now exists f.
  - right. now exists f, fd.
Qed.

Lemma ledger_symbols_are_listed_witness :
  is_Some
    (stocks
       (state_of
          (record_trade 0 "ABC" 100 BUY 100
             (state_of (get_stocks [data_ABC] StockMarket_init))))
     !! "ABC").
Proof.
  refine (proj1 (ledger_symbols_are_listed _
                   (mkTrade stock_ABC 100 BUY 100%Q 0) _ _)).
  - apply reachable_record_trade, reachable_get_stocks, reachable_init.
  - left. reflexivity.
Defined.



End MarketInvariants.

(** ** Loading stocks: outcome and catalog *)

Section LoadOutcome.

Lemma get_stocks_step_record (data : StockData) (s : StockMarket) :
  get_stocks_step data s =
  match stock_of_record data with
  | inl e => Raised e s
  | inr st =>
      Returned tt
        (mkStockMarket (trades s) (<[stock_symbol st := st]> (stocks s)))
  end.
Proof.
  rewrite get_stocks_step_unfold. unfold stock_of_record.
  destruct (resolve_stock_type data); reflexivity.
Qed.

(** A record gives a stock unless its type is not recognised, which is
    a [ValueError], or a key is missing, which is a [KeyError]. *)
Lemma stock_of_record_cases (data : StockData) :
  (exists st, stock_of_record data = ret st
              /\ exists ty, resolve_stock_type data = Some ty
                            /\ missing_field ty data = false)
  \/ (stock_of_record data = raise ValueError
      /\ resolve_stock_type data = None)
  \/ (stock_of_record data = raise KeyError
      /\ exists ty, resolve_stock_type data = Some ty
                    /\ missing_field ty data = true).
Proof.
  unfold stock_of_record, missing_field, build_stock.
  destruct (resolve_stock_type data) as [ty|]; [|right; left; now split].
  destruct (data_symbol data) as [sym|]; cbn;
    [|right; right; split; [reflexivity|now exists ty]].
  destruct (data_last_dividend data) as [ld|]; cbn;
    [|right; right; split; [reflexivity|now exists ty]].
  destruct (data_par_value data) as [pv|]; cbn;
    [|right; right; split; [reflexivity|now exists ty]].
  destruct ty.
  - left. eexists. split; [reflexivity|now exists COMMON].
  - destruct (data_fixed_dividend data) as [fd|]; cbn.
    + left. eexists. split; [reflexivity|now exists PREFERRED].
    + right; right. split; [reflexivity|now exists PREFERRED].
Qed.

(** Where a load stops: after the records before the first one that
    gives no stock, with the exception of that record. *)
Lemma get_stocks_raised (stock_data : list StockData) (s s' : StockMarket)
    (e : exn) :
  get_stocks stock_data s = Raised e s' ->
  exists before bad after,
    stock_data = before ++ bad :: after
    /\ get_stocks before s = Returned tt s'
    /\ stock_of_record bad = raise e.
Proof.
  revert s. induction stock_data as [|data rest IH]; intros s.
  - rewrite get_stocks_eq_loop. discriminate.
  - rewrite get_stocks_cons, get_stocks_step_record.
    destruct (stock_of_record data) as [e0|st] eqn:Hd.
    + intros [= <- <-]. exists [], data, rest. now repeat split.
    + intros H. destruct (IH _ H) as (before & bad & after & -> & Hb & Hbad).
      exists (data :: before), bad, after. repeat split; [|exact Hbad].
      now rewrite get_stocks_cons, get_stocks_step_record, Hd.
Qed.

Lemma get_stocks_returned (stock_data : list StockData) (s : StockMarket) :
  Forall (fun d => exists st, stock_of_record d = ret st) stock_data ->
  exists s', get_stocks stock_data s = Returned tt s'.
Proof.
  intros H. revert s. induction H as [|data rest [st Hst] _ IH]; intros s.
  - exists s. now rewrite get_stocks_eq_loop.
  - rewrite get_stocks_cons, get_stocks_step_record, Hst. apply IH.
Qed.

(** X4.  [get_stocks] returns exactly when every record has a
    recognised type and all the keys its class needs, whatever the
    market holds.  When it raises, the exception is a [ValueError] for
    the first record without a recognised type or a [KeyError] for the
    first record that lacks a key, and the market is the one the
    records before it have left. *)
Theorem get_stocks_outcome (stock_data : list StockData)
    (self : StockMarket) :
  ((exists self', get_stocks stock_data self = Returned tt self') <->
   Forall (fun d => exists ty, resolve_stock_type d = Some ty
                               /\ missing_field ty d = false) stock_data)
  /\ (forall e self',
        get_stocks stock_data self = Raised e self' ->
        exists before bad after,
          stock_data = before ++ bad :: after
          /\ get_stocks before self = Returned tt self'
          /\ ((e = ValueError /\ resolve_stock_type bad = None)
              \/ (e = KeyError
                  /\ exists ty, resolve_stock_type bad = Some ty
                                /\ missing_field ty bad = true))).
Proof.
  split; [split|].
  - intros [s' Hs']. apply List.Forall_forall. intros d Hd.
    destruct (stock_of_record_cases d)
      as [(st & _ & Hok)|[[Hbad _]|[Hbad _]]]; [exact Hok| |];
      exfalso; apply List.in_split in Hd; destruct Hd as (l1 & l2 & ->);
      rewrite get_stocks_app in Hs';
      destruct (get_stocks l1 self) as [[] s1|e1 s1]; try discriminate;
      rewrite get_stocks_cons, get_stocks_step_record, Hbad in Hs';
      discriminate.
  - intros H. apply get_stocks_returned.
    eapply List.Forall_impl; [|exact H]. intros d (ty & Hty & Hm).
    destruct (stock_of_record_cases d)
      as [(st & Hst & _)|[[_ Hn]|[_ (ty' & Hty' & Hm')]]];
      [now exists st|congruence|].
    rewrite Hty in Hty'. injection Hty' as <-. congruence.
  - intros e s' H.
    destruct (get_stocks_raised _ _ _ _ H)
      as (before & bad & after & -> & Hb & Hbad).
    exists before, bad, after. repeat split; [exact Hb|].
    destruct (stock_of_record_cases bad)
      as [(st & Hst & _)|[[Hv Hn]|[Hk Hm]]].
    + rewrite Hst in Hbad. discriminate.
    + rewrite Hv in Hbad. injection Hbad as <-. left. now split.
    + rewrite Hk in Hbad. injection Hbad as <-. right. now split.
Qed.

Lemma get_stocks_outcome_witness :
  exists self',
    get_stocks [data_ABC; data_XYZ] market_two_trades = Returned tt self'.
Proof.
  refine (proj2 (proj1 (get_stocks_outcome [data_ABC; data_XYZ]
                          market_two_trades)) _).
  repeat constructor.
  - exists COMMON. split; reflexivity.
  - exists PREFERRED. split; reflexivity.
Defined.

(** A preferred record without its [fixed_dividend]: the key error
    comes after the first record is stored. *)
Example get_stocks_missing_fixed_dividend :
  get_stocks
    [data_ABC;
     mkStockData (Some "XYZ") (Some "preferred") (Some (Some 8%Q))
       (Some (Some 100%Q)) None]
    StockMarket_init
  = Raised KeyError market_ABC.
Proof. reflexivity. Qed.

Lemma stock_of_record_symbol (data : StockData) (st : Stock) :
  stock_of_record data = ret st -> data_symbol data = Some (stock_symbol st).
Proof.
  unfold stock_of_record.
  destruct (resolve_stock_type data) as [ty|]; [|discriminate].
  apply build_stock_symbol.
Qed.

(** The catalog after a load that returned, key by key. *)
Lemma get_stocks_lookup (stock_data : list StockData) (s s' : StockMarket)
    (k : string) :
  get_stocks stock_data s = Returned tt s' ->
  stocks s' !! k =
  match last_loaded stock_data k with
  | Some st => Some st
  | None => stocks s !! k
  end.
Proof.
  revert s. induction stock_data as [|data rest IH]; intros s.
  - rewrite get_stocks_eq_loop. now intros [= <-].
  - rewrite get_stocks_cons, get_stocks_step_record.
    cbn [last_loaded].
    destruct (stock_of_record data) as [e|st]; [discriminate|].
    intros H. rewrite (IH _ H). cbn [stocks].
    destruct (last_loaded rest k); [reflexivity|].
    rewrite lookup_insert.
    destruct (decide (stock_symbol st = k)) as [Heq|Hne].
    + apply String.eqb_eq in Heq. now rewrite Heq.
    + apply String.eqb_neq in Hne. now rewrite Hne.
Qed.

Lemma last_loaded_unnamed (stock_data : list StockData) (k : string) :
  Forall (fun d => data_symbol d <> Some k) stock_data ->
  last_loaded stock_data k = None.
Proof.
  induction 1 as [|data rest Hd _ IH]; [reflexivity|].
  cbn [last_loaded]. rewrite IH.
  destruct (stock_of_record data) as [e|st] eqn:Hst; [reflexivity|].
  apply stock_of_record_symbol in Hst.
  destruct (String.eqb_spec (stock_symbol st) k) as [<-|]; [|reflexivity].
  contradiction.
Qed.

Lemma last_loaded_app (l1 l2 : list StockData) (k : string) :
  last_loaded (l1 ++ l2) k =
  match last_loaded l2 k with
  | Some st => Some st
  | None => last_loaded l1 k
  end.
Proof.
  induction l1 as [|d l1 IH]; cbn [app last_loaded].
  - now destruct (last_loaded l2 k).
  - rewrite IH. now destruct (last_loaded l2 k).
Qed.

(** X5.  After a load that returned, the catalog holds under a symbol
    the stock of the last record of the load with that symbol, whatever
    was there before; a symbol that no record names keeps its entry. *)
Theorem get_stocks_last_record_wins (stock_data : list StockData)
    (self self' : StockMarket) (k : string) :
  get_stocks stock_data self = Returned tt self' ->
  (forall before data after,
     stock_data = before ++ data :: after ->
     data_symbol data = Some k ->
     Forall (fun d => data_symbol d <> Some k) after ->
     exists st, stock_of_record data = ret st
                /\ stocks self' !! k = Some st)
  /\ (Forall (fun d => data_symbol d <> Some k) stock_data ->
      stocks self' !! k = stocks self !! k).
Proof.
  intros Hret. pose proof (get_stocks_lookup _ _ _ k Hret) as Hlook. split.
  - intros before data after -> Hsym Hafter.
    assert (Hok : exists st, stock_of_record data = ret st).
    { rewrite get_stocks_app in Hret.
      destruct (get_stocks before self) as [[] s1|]; [|discriminate].
      rewrite get_stocks_cons, get_stocks_step_record in Hret.
      destruct (stock_of_record data) as [e|st]; [discriminate|].
      now exists st. }
    destruct Hok as [st Hst]. exists st. split; [exact Hst|].
    rewrite Hlook, last_loaded_app. cbn [last_loaded].
    rewrite (last_loaded_unnamed after k Hafter), Hst.
    apply stock_of_record_symbol in Hst. rewrite Hsym in Hst.
    injection Hst as ->. unfold ret. now rewrite String.eqb_refl.
  - intros Hnone. now rewrite Hlook, (last_loaded_unnamed _ k Hnone).
Qed.

Lemma get_stocks_last_record_wins_witness :
  exists st,
    stock_of_record
      (mkStockData (Some "ABC") (Some "PREFERRED") (Some None)
         (Some (Some 100%Q)) (Some (Some 0.02%Q))) = ret st
    /\ stocks
         (state_of
            (get_stocks
               [data_ABC;
                mkStockData (Some "ABC") (Some "PREFERRED") (Some None)
                  (Some (Some 100%Q)) (Some (Some 0.02%Q));
                data_XYZ]
               StockMarket_init)) !! "ABC"
       = Some st.
Proof.
  refine (proj1 (get_stocks_last_record_wins
                   [data_ABC;
                    mkStockData (Some "ABC") (Some "PREFERRED") (Some None)
                      (Some (Some 100%Q)) (Some (Some 0.02%Q));
                    data_XYZ]
                   StockMarket_init
                   (state_of
                      (get_stocks
                         [data_ABC;
                          mkStockData (Some "ABC") (Some "PREFERRED")
                            (Some None) (Some (Some 100%Q))
                            (Some (Some 0.02%Q));
                          data_XYZ]
                         StockMarket_init))
                   "ABC" _)
            [data_ABC]
            (mkStockData (Some "ABC") (Some "PREFERRED") (Some None)
               (Some (Some 100%Q)) (Some (Some 0.02%Q)))
            [data_XYZ] eq_refl eq_refl _).
  - reflexivity.
  - repeat constructor. discriminate.
Defined.

(** X6.  Loading again the data of a load that returned changes
    nothing: the second load returns and leaves the market as it is. *)
Theorem get_stocks_reload (stock_data : list StockData)
    (self self' : StockMarket) :
  get_stocks stock_data self = Returned tt self' ->
  get_stocks stock_data self' = Returned tt self'.
Proof.
  intros Hret.
  assert (Hall : Forall (fun d => exists st, stock_of_record d = ret st)
                   stock_data).
  { apply List.Forall_forall. intros d Hd.
    apply List.in_split in Hd. destruct Hd as (l1 & l2 & ->).
    rewrite get_stocks_app in Hret.
    destruct (get_stocks l1 self) as [[] s1|]; [|discriminate].
    rewrite get_stocks_cons, get_stocks_step_record in Hret.
    destruct (stock_of_record d) as [e|st]; [discriminate|]. now exists st. }
  destruct (get_stocks_returned stock_data self' Hall) as [s2 Hs2].
  rewrite Hs2. f_equal.
  pose proof (get_stocks_trades stock_data self') as Ht.
  rewrite Hs2 in Ht. cbn in Ht.
  assert (Hm : stocks s2 = stocks self').
  { apply map_eq. intros k.
    rewrite (get_stocks_lookup _ _ _ k Hs2), (get_stocks_lookup _ _ _ k Hret).
    now destruct (last_loaded stock_data k). }
  destruct s2, self'. cbn in *. now subst.
Qed.

Lemma get_stocks_reload_witness :
  get_stocks [data_ABC] market_ABC = Returned tt market_ABC.
Proof.
  refine (get_stocks_reload [data_ABC] StockMarket_init market_ABC _).
  reflexivity.
Defined.

End LoadOutcome.

(** ** Consecutive trades and the set-up of [main] *)

Section ConsecutiveTrades.

Local Open Scope Q_scope.

(** One call, in terms of the trade the request leads to. *)
Lemma record_trade_accepted (r : TradeRequest) (s : StockMarket) :
  record_trade (request_now r) (request_symbol r) (request_quantity r)
    (request_type r) (request_price r) s =
  match accepted (stocks s) r with
  | Some t => Returned tt (mkStockMarket (trades s ++ [t]) (stocks s))
  | None => Raised ValueError s
  end.
Proof.
  rewrite record_trade_unfold. unfold accepted.
  destruct (stocks s !! request_symbol r); [|reflexivity].
  destruct (request_quantity r <=? 0)%Z; [reflexivity|].
  destruct (Py.le0 (request_price r)); reflexivity.
Qed.

Lemma record_all_state (requests : list TradeRequest) (s : StockMarket) :
  state_of (record_all requests s) =
  mkStockMarket (trades s ++ accepted_prefix (stocks s) requests) (stocks s).
Proof.
  revert s. induction requests as [|r rest IH]; intros s.
  - cbn. rewrite List.app_nil_r. now destruct s.
  - cbn [record_all accepted_prefix]. unfold Stmt.seq.
    rewrite record_trade_accepted.
    destruct (accepted (stocks s) r) as [t|].
    + rewrite IH. cbn [trades stocks]. now rewrite <- List.app_assoc.
    + cbn. rewrite List.app_nil_r. now destruct s.
Qed.




(** The [try] block of [main] is the six requests in a row, with the
    exception of the first refused one dropped. *)
Lemma main_record_trades_all (t1 t2 t3 t4 t5 t6 : Z) (s : StockMarket) :
  main_record_trades t1 t2 t3 t4 t5 t6 s =
  Returned tt (state_of (record_all (main_requests t1 t2 t3 t4 t5 t6) s)).
Proof.
  unfold main_record_trades, main_requests, Stmt.try_except.
  cbn [record_all request_now request_symbol request_quantity request_type
       request_price].
  unfold Stmt.seq, Stmt.pure.
  repeat (match goal with
          | |- context [record_trade ?a ?b ?c ?d ?e ?f] =>
              destruct (record_trade a b c d e f) as [[] ?|? ?];
              try reflexivity
          end).
Qed.

Lemma main_accepted (catalog : gmap string Stock) (t1 t2 t3 t4 t5 t6 : Z)
    (r : TradeRequest) :
  In r (main_requests t1 t2 t3 t4 t5 t6) ->
  accepted catalog r =
  match catalog !! request_symbol r with
  | Some st => Some (mkTrade st (request_quantity r) (request_type r)
                       (request_price r) (request_now r))
  | None => None
  end.
Proof.
  intros Hr. unfold accepted.
  destruct (catalog !! request_symbol r); [|reflexivity].
  cbn in Hr. destruct Hr as [<-|[<-|[<-|[<-|[<-|[<-|[]]]]]]]; reflexivity.
Qed.

(** X8.  [main], up to its first [print], raises exactly when loading
    the stock data raises.  Otherwise the catalog is the loaded one and
    the ledger has the trades of the six requests up to the first whose
    symbol the data does not list: all six when TEA, POP, ALE, GIN and
    JOE are listed, none when TEA is not. *)
Theorem main_setup_outcome (stock_data : list StockData)
    (t1 t2 t3 t4 t5 t6 : Z) :
  (forall e s,
     get_stocks stock_data StockMarket_init = Raised e s ->
     main_setup stock_data t1 t2 t3 t4 t5 t6 = Raised e s)
  /\ (forall s,
        get_stocks stock_data StockMarket_init = Returned tt s ->
        main_setup stock_data t1 t2 t3 t4 t5 t6
        = Returned tt
            (mkStockMarket
               (accepted_prefix (stocks s)
                  (main_requests t1 t2 t3 t4 t5 t6))
               (stocks s))
        /\ (Forall (fun sym => is_Some (stocks s !! sym))
              ["TEA"; "POP"; "ALE"; "GIN"; "JOE"]%string ->
            length (trades (state_of
                      (main_setup stock_data t1 t2 t3 t4 t5 t6))) = 6%nat)
        /\ (stocks s !! "TEA"%string = None ->
            trades (state_of (main_setup stock_data t1 t2 t3 t4 t5 t6))
            = [])).
Proof.
  unfold main_setup, Stmt.seq. split.
  - intros e s ->. reflexivity.
  - intros s Hs. rewrite Hs, main_record_trades_all, record_all_state.
    pose proof (get_stocks_trades stock_data StockMarket_init) as Ht.
    rewrite Hs in Ht. cbn in Ht. rewrite Ht. cbn [app].
    split; [reflexivity|]. cbn [state_of trades]. split.
    + intros Hall.
      repeat (apply List.Forall_cons_iff in Hall;
              destruct Hall as [[? ?] Hall]).
      unfold main_requests. cbn [accepted_prefix].
      repeat (rewrite main_accepted with (t1 := t1) (t2 := t2) (t3 := t3)
                (t4 := t4) (t5 := t5) (t6 := t6)
                by (cbn; tauto);
              cbn [request_symbol];
              match goal with
              | H : stocks s !! ?k = Some _ |- context [stocks s !! ?k] =>
                  rewrite H
              end).
      reflexivity.
    + intros Hnone. unfold main_requests. cbn [accepted_prefix].
      unfold accepted at 1. cbn [request_symbol]. now rewrite Hnone.
Qed.

Lemma main_setup_outcome_witness :
  main_setup [data_ABC] 1 2 3 4 5 6
  = Returned tt
      (mkStockMarket
         (accepted_prefix (stocks market_ABC) (main_requests 1 2 3 4 5 6))
         (stocks market_ABC)).
Proof.
  refine (proj1 (proj2 (main_setup_outcome [data_ABC] 1 2 3 4 5 6)
                   market_ABC _)).
  reflexivity.
Defined.

End ConsecutiveTrades.

(** ** More on the yield and the ratio *)

Section YieldAndRatio.

Local Open Scope Q_scope.










End YieldAndRatio.

(** ** More on the volume-weighted price *)

Section PriceProperties.

Local Open Scope Q_scope.











(** The price only looks at the relevant trades. *)
Lemma vwsp_ext (a b : StockMarket) (now : Z) (sym : string) :
  relevant_trades a sym (now - minutes_15)
  = relevant_trades b sym (now - minutes_15) ->
  calculate_volume_weighted_stock_price a now sym
  = calculate_volume_weighted_stock_price b now sym.
Proof.
  intros H. unfold calculate_volume_weighted_stock_price. now rewrite H.
Qed.

Lemma relevant_trades_snoc (s : StockMarket) (t : Trade) (sym : string)
    (since : Z) :
  relevant_trades (mkStockMarket (trades s ++ [t]) (stocks s)) sym since
  = relevant_trades s sym since
    ++ (if relevant sym since t then [t] else []).
Proof.
  unfold relevant_trades. cbn [trades]. rewrite List.filter_app. cbn.
  now destruct (relevant sym since t).
Qed.

(** The state a call of [record_trade] leaves, read off the request. *)
Lemma record_trade_state (now : Z) (sym : string) (q : Z) (ty : TradeType)
    (p : Q) (s : StockMarket) :
  state_of (record_trade now sym q ty p s) = s
  \/ exists st,
       stocks s !! sym = Some st /\ (0 < q)%Z /\ 0 < p
       /\ state_of (record_trade now sym q ty p s)
          = mkStockMarket (trades s ++ [mkTrade st q ty p now]) (stocks s).
Proof.
  rewrite record_trade_unfold.
  destruct (stocks s !! sym) as [st|]; [|now left].
  destruct (q <=? 0)%Z eqn:Hq; [now left|].
  destruct (Py.le0 p) eqn:Hp; [now left|].
  right. exists st. repeat split.
  - now apply Z.leb_gt in Hq.
  - now apply le0_false.
Qed.

(** X15.  In a market reached through the methods, a call of
    [record_trade] on another symbol, or stamped fifteen minutes or more
    before the time of the query, leaves the volume-weighted price of a
    symbol as it was, whether the call returns or raises. *)
Theorem record_trade_keeps_other_prices (self : StockMarket)
    (t now : Z) (sym' sym : string) (q : Z) (ty : TradeType) (p : Q) :
  reachable self ->
  sym' <> sym \/ (t <= now - minutes_15)%Z ->
  calculate_volume_weighted_stock_price
    (state_of (record_trade t sym' q ty p self)) now sym
  = calculate_volume_weighted_stock_price self now sym.
Proof.
  intros Hreach Hother.
  destruct (record_trade_state t sym' q ty p self)
    as [->|(st & Hst & _ & _ & ->)]; [reflexivity|].
  apply vwsp_ext. rewrite relevant_trades_snoc.
  assert (Hrel : relevant sym (now - minutes_15) (mkTrade st q ty p t)
                 = false).
  { destruct (relevant sym (now - minutes_15) (mkTrade st q ty p t)) eqn:E;
      [|reflexivity].
    apply relevant_true in E. cbn [stock timestamp] in E.
    destruct E as [Hsym Hts].
    destruct (reachable_catalog_ok self Hreach sym' st Hst) as [Hk _].
    unfold stock_symbol in Hk.
    destruct Hother as [Hne|Hold]; [congruence|lia]. }
  rewrite Hrel. apply List.app_nil_r.
Qed.

Lemma record_trade_keeps_other_prices_witness :
  calculate_volume_weighted_stock_price
    (state_of
       (record_trade 5 "XYZ" 10 BUY 7
          (state_of (get_stocks [data_ABC; data_XYZ] StockMarket_init))))
    60 "ABC"
  = calculate_volume_weighted_stock_price
      (state_of (get_stocks [data_ABC; data_XYZ] StockMarket_init)) 60 "ABC".
Proof.
  refine (record_trade_keeps_other_prices _ 5 60 "XYZ" "ABC" 10 BUY 7 _ _).
  - apply reachable_get_stocks, reachable_init.
  - left. discriminate.
Defined.



End PriceProperties.

(** ** The trade details *)

Section TradeDetailsProperties.

Local Open Scope Q_scope.

Variable isoformat : Z -> string.



End TradeDetailsProperties.


(** ** Loading stocks and the reports *)

Section LoadKeepsReports.

(** X18.  [get_stocks] changes none of the reports, whether it returns
    or raises and even when it replaces the catalog entry of a traded
    symbol: the volume-weighted prices, the all-share index and the
    trade details are those of the market before the call. *)
Theorem get_stocks_keeps_reports (stock_data : list StockData)
    (self : StockMarket) (now : Z) (sym : string)
    (isoformat : Z -> string) :
  calculate_volume_weighted_stock_price
    (state_of (get_stocks stock_data self)) now sym
  = calculate_volume_weighted_stock_price self now sym
  /\ calculate_gbce_all_share_index (state_of (get_stocks stock_data self))
     = calculate_gbce_all_share_index self
  /\ get_trade_details isoformat (state_of (get_stocks stock_data self))
     = get_trade_details isoformat self.
Proof.
  pose proof (get_stocks_trades stock_data self) as Ht.
  split; [|split].
  - apply vwsp_ext. unfold relevant_trades. now rewrite Ht.
  - unfold calculate_gbce_all_share_index. now rewrite Ht.
  - unfold get_trade_details. now rewrite Ht.
Qed.

End LoadKeepsReports.

(** ** More on the all-share index *)

Section IndexProperties.

Local Open Scope R_scope.


















End IndexProperties.

(** ** Chronological order of the ledger *)

Section Chronological.

Lemma StronglySorted_snoc (l : list Z) (a : Z) :
  StronglySorted Z.le l -> Forall (fun x => (x <= a)%Z) l ->
  StronglySorted Z.le (l ++ [a]).
Proof.
  induction 1 as [|x l _ IH Hx]; intros Ha; cbn.
  - repeat constructor.
  - apply List.Forall_cons_iff in Ha. destruct Ha as [Hxa Ha].
    constructor; [now apply IH|].
    apply Forall_app. split; [exact Hx|]. now constructor.
Qed.

(** X22.  A call of [record_trade] whose clock reading is not before
    any timestamp of the ledger keeps the ledger in chronological
    order, and no timestamp is after that reading: with a clock that
    never goes back, the order of the ledger is the order of time. *)
Theorem record_trade_keeps_chronological (self : StockMarket) (now : Z)
    (sym : string) (q : Z) (ty : TradeType) (p : Q) :
  StronglySorted Z.le (List.map timestamp (trades self)) ->
  Forall (fun t => (timestamp t <= now)%Z) (trades self) ->
  StronglySorted Z.le
    (List.map timestamp
       (trades (state_of (record_trade now sym q ty p self))))
  /\ Forall (fun t => (timestamp t <= now)%Z)
       (trades (state_of (record_trade now sym q ty p self))).
Proof.
  intros Hs Hb.
  destruct (record_trade_ledger now sym q ty p self)
    as [->|(st & _ & _ & ->)]; [now split|].
  split.
  - rewrite List.map_app. cbn. apply StronglySorted_snoc; [exact Hs|].
    rewrite List.Forall_map. exact Hb.
  - apply Forall_app. split; [exact Hb|]. constructor; [cbn; lia|constructor].
Qed.

Lemma record_trade_keeps_chronological_witness :
  StronglySorted Z.le
    (List.map timestamp
       (trades
          (state_of
             (record_trade 3000000 "ABC" 50 BUY 101 market_two_trades)))).
Proof.
  refine (proj1 (record_trade_keeps_chronological market_two_trades
                   3000000 "ABC" 50 BUY 101%Q _ _)).
  - repeat constructor; cbn; lia.
  - repeat constructor; cbn; lia.
Defined.

End Chronological.
